(** * AuthPanel (src/App.jsx): the profile upsert and the auth handlers

    A shallow embedding of the React component [App] of [src/App.jsx]:
    its five pieces of hook state, the routine [fetchUserData], the
    [onAuthStateChanged] callback, [handleRedirectResult] and the five
    button handlers.  The Firebase services (Auth, Firestore) are external;
    they are modelled as an environment that answers each awaited call from
    a script of replies, so that every handler is an executable function.
    A handler is run from its entry to its end (or to a call that never
    settles) before the next one is taken: what the run of one handler does
    is modelled, the interleaving of two suspended handlers is not. *)

From stdpp Require Import gmap strings list.

Open Scope string_scope.
Open Scope Z_scope.

(** ** JavaScript values used by the component *)

Module Js.

(** A property that holds a string or [null]. *)
Definition value := option string.

(** Truthiness: [null] and the empty string are falsy. *)
Definition truthy_string (s : string) : bool :=
  match s with
  | EmptyString => false
  | String _ _ => true
  end.

Definition truthy (v : value) : bool :=
  match v with
  | Some s => truthy_string s
  | None => false
  end.

(** [a || b] *)
Definition or (a b : value) : value := if truthy a then a else b.

(** [${v}] inside a template literal. *)
Definition show (v : value) : string :=
  match v with
  | Some s => s
  | None => "null"
  end.

End Js.

(** The error objects thrown by the services: only [message] is read. *)
Record Error := { message : string }.

(** The Firebase user object, as far as the component reads it. *)
Module User.
Record t := {
  uid : string;
  email : Js.value;
  displayName : Js.value;
  photoURL : Js.value
}.
End User.

(** The document written under ['userProfiles'/uid]. *)
Module Profile.
Record t := {
  uid : string;
  email : Js.value;
  displayName : Js.value;
  photoURL : Js.value;
  createdAt : Z;
  score : Z
}.
End Profile.

(** [doc(db, collection, id)] *)
Definition DocRef : Type := string * string.
Definition doc (collection id : string) : DocRef := (collection, id).

(** A [DocumentSnapshot]: [exists()] and [data()]. *)
Definition DocumentSnapshot : Type := option Profile.t.
Definition snap_exists (d : DocumentSnapshot) : bool :=
  match d with Some _ => true | None => false end.
Definition data (d : DocumentSnapshot) : option Profile.t := d.

(** ** The environment *)

Inductive AuthCall :=
| createUserWithEmailAndPassword (email password : string)
| signInWithEmailAndPassword (email password : string)
| signInWithPopup
| signInWithRedirect
| getRedirectResult
| signOut.

Inductive Call :=
| GetDoc (r : DocRef)
| SetDoc (r : DocRef) (d : Profile.t)
| Auth (c : AuthCall).

(** How an awaited call settled. [Never] is a call that stays pending. *)
Inductive Answer :=
| Snapshot (d : DocumentSnapshot)
| Credential (c : option User.t)
| Void
| Failure (e : Error)
| Never.

Inductive Event :=
| Ext (c : Call) (a : Answer)
| Console (line : string)
| Enter_fetchUserData (uid : string).

Inductive StoreReply := StoreOk | StoreErr (e : Error).
Inductive AuthReply := AuthOk (c : option User.t) | AuthErr (e : Error).

(** The hook state of [App]. *)
Record AppState := {
  user : option User.t;
  email : string;
  password : string;
  authMessage : string;
  userData : option Profile.t
}.

(** The services: the documents, the clock read by [new Date()], and the
    replies the two services will give to the calls still to come.  A call
    that finds its script empty never settles. *)
Record World := {
  store : gmap DocRef Profile.t;
  clock : Z;
  store_replies : list StoreReply;
  auth_replies : list AuthReply
}.

Record State := { app : AppState; world : World }.

Definition initial_app : AppState :=
  {| user := None; email := ""; password := ""; authMessage := "";
     userData := None |}.

(** ** The monad of handlers: state, exceptions, pending calls, a trace *)

Inductive Completion (A : Type) :=
| Normal (a : A)
| Throw (e : Error)
| Hang.
Arguments Normal {A} a.
Arguments Throw {A} e.
Arguments Hang {A}.

Record Run (A : Type) := {
  completion : Completion A;
  final : State;
  events : list Event
}.
Arguments completion {A} r.
Arguments final {A} r.
Arguments events {A} r.

Definition M (A : Type) : Type := State → Run A.

Definition ret {A} (a : A) : M A :=
  fun s => {| completion := Normal a; final := s; events := [] |}.

Definition bind {A B} (m : M A) (f : A → M B) : M B :=
  fun s =>
    match m s with
    | {| completion := Normal a; final := s1; events := evs1 |} =>
        match f a s1 with
        | {| completion := c; final := s2; events := evs2 |} =>
            {| completion := c; final := s2; events := evs1 ++ evs2 |}
        end
    | {| completion := Throw e; final := s1; events := evs1 |} =>
        {| completion := Throw e; final := s1; events := evs1 |}
    | {| completion := Hang; final := s1; events := evs1 |} =>
        {| completion := Hang; final := s1; events := evs1 |}
    end.

(** [try { body } catch (error) { handler error }] *)
Definition try_catch {A} (body : M A) (handler : Error → M A) : M A :=
  fun s =>
    match body s with
    | {| completion := Throw e; final := s1; events := evs1 |} =>
        match handler e s1 with
        | {| completion := c; final := s2; events := evs2 |} =>
            {| completion := c; final := s2; events := evs1 ++ evs2 |}
        end
    | r => r
    end.

Definition throw {A} (e : Error) : M A :=
  fun s => {| completion := Throw e; final := s; events := [] |}.

Definition emit (ev : Event) : M unit :=
  fun s => {| completion := Normal tt; final := s; events := [ev] |}.

Definition modify_app (f : AppState → AppState) : M unit :=
  fun s => {| completion := Normal tt;
              final := {| app := f (app s); world := world s |};
              events := [] |}.

Definition read_app {A} (f : AppState → A) : M A :=
  fun s => {| completion := Normal (f (app s)); final := s; events := [] |}.

Declare Scope js_scope.
Delimit Scope js_scope with js.
Notation "x <- m ;; k" := (bind m (fun x => k))
  (at level 100, m at next level, right associativity) : js_scope.
Notation "m ;; k" := (bind m (fun _ => k))
  (at level 100, right associativity) : js_scope.
Open Scope js_scope.

(** The state setters returned by [useState]. *)
Definition setUser (u : option User.t) : M unit :=
  modify_app (fun a =>
    {| user := u; email := email a; password := password a;
       authMessage := authMessage a; userData := userData a |}).

Definition setAuthMessage (m : string) : M unit :=
  modify_app (fun a =>
    {| user := user a; email := email a; password := password a;
       authMessage := m; userData := userData a |}).

Definition setUserData (d : option Profile.t) : M unit :=
  modify_app (fun a =>
    {| user := user a; email := email a; password := password a;
       authMessage := authMessage a; userData := d |}).

Definition console_log (line : string) : M unit := emit (Console line).
Definition console_error (line : string) : M unit := emit (Console line).

(** [new Date()] *)
Definition new_Date : M Z :=
  fun s => {| completion := Normal (clock (world s)); final := s; events := [] |}.

(** Awaiting a settled call lets one unit of time pass. *)
Definition settle (w : World) (st : gmap DocRef Profile.t)
    (sr : list StoreReply) (ar : list AuthReply) : World :=
  {| store := st; clock := clock w + 1; store_replies := sr; auth_replies := ar |}.

(** [await getDoc(r)] *)
Definition getDoc (r : DocRef) : M DocumentSnapshot :=
  fun s =>
    let w := world s in
    match store_replies w with
    | [] => {| completion := Hang; final := s; events := [Ext (GetDoc r) Never] |}
    | StoreErr e :: rest =>
        {| completion := Throw e;
           final := {| app := app s; world := settle w (store w) rest (auth_replies w) |};
           events := [Ext (GetDoc r) (Failure e)] |}
    | StoreOk :: rest =>
        {| completion := Normal (store w !! r);
           final := {| app := app s; world := settle w (store w) rest (auth_replies w) |};
           events := [Ext (GetDoc r) (Snapshot (store w !! r))] |}
    end.

(** [await setDoc(r, d)]: overwrites the document wholesale. *)
Definition setDoc (r : DocRef) (d : Profile.t) : M unit :=
  fun s =>
    let w := world s in
    match store_replies w with
    | [] => {| completion := Hang; final := s; events := [Ext (SetDoc r d) Never] |}
    | StoreErr e :: rest =>
        {| completion := Throw e;
           final := {| app := app s; world := settle w (store w) rest (auth_replies w) |};
           events := [Ext (SetDoc r d) (Failure e)] |}
    | StoreOk :: rest =>
        {| completion := Normal tt;
           final := {| app := app s;
                       world := settle w (<[r := d]> (store w)) rest (auth_replies w) |};
           events := [Ext (SetDoc r d) Void] |}
    end.

(** [await c] for a call [c] of the Auth service. *)
Definition auth_call (c : AuthCall) : M (option User.t) :=
  fun s =>
    let w := world s in
    match auth_replies w with
    | [] => {| completion := Hang; final := s; events := [Ext (Auth c) Never] |}
    | AuthErr e :: rest =>
        {| completion := Throw e;
           final := {| app := app s; world := settle w (store w) (store_replies w) rest |};
           events := [Ext (Auth c) (Failure e)] |}
    | AuthOk cred :: rest =>
        {| completion := Normal cred;
           final := {| app := app s; world := settle w (store w) (store_replies w) rest |};
           events := [Ext (Auth c) (Credential cred)] |}
    end.

(** [result.user]: reading a property of [null] throws a [TypeError]. *)
Definition type_error : Error :=
  {| message := "Cannot read properties of null (reading 'user')" |}.

Definition dot_user (result : option User.t) : M User.t :=
  match result with
  | Some u => ret u
  | None => throw type_error
  end.

(** ** The component *)

(** [fetchUserData] (lines 31-70).  The first event records the entry into
    the routine; it has no counterpart in the state. *)
Definition fetchUserData (uid : string) (currentUserObject : User.t) : M unit :=
  emit (Enter_fetchUserData uid) ;;
  if negb (Js.truthy_string uid) then
    console_log "No UID provided to fetch user data." ;;
    setAuthMessage "No user logged in to fetch data." ;;
    setUserData None
  else
    setAuthMessage ("Fetching data for UID: " +:+ uid +:+ "...") ;;
    try_catch
      (let userDocRef := doc "userProfiles" uid in
       docSnap <- getDoc userDocRef ;;
       if snap_exists docSnap then
         console_log "User data from Firestore:" ;;
         setUserData (data docSnap) ;;
         setAuthMessage ("User data fetched for " +:+ uid +:+ ". Check console.")
       else
         console_log "No user profile found for this UID. Creating one..." ;;
         now <- new_Date ;;
         setDoc userDocRef
           {| Profile.uid := uid;
              Profile.email := Js.or (User.email currentUserObject) None;
              Profile.displayName := Js.or (User.displayName currentUserObject) None;
              Profile.photoURL := Js.or (User.photoURL currentUserObject) None;
              Profile.createdAt := now;
              Profile.score := 0 |} ;;
         newDocSnap <- getDoc userDocRef ;;
         setUserData (data newDocSnap) ;;
         setAuthMessage ("New profile created and fetched for " +:+ uid +:+ "."))
      (fun error =>
         console_error "Error getting user document from Firestore:" ;;
         setAuthMessage ("Firestore Data Error: " +:+ message error) ;;
         setUserData None).

(** The callback given to [onAuthStateChanged] (lines 74-87).  The call of
    [fetchUserData] is not awaited by the callback; here it runs to its end
    before the next event is taken. *)
Definition onAuthStateChanged_callback (currentUser : option User.t) : M unit :=
  setUser currentUser ;;
  match currentUser with
  | Some cu =>
      setAuthMessage
        ("Logged in as: " +:+
         Js.show (Js.or (Js.or (User.email cu) (User.displayName cu)) (Some "Anonymous"))) ;;
      console_log "Current authenticated user UID:" ;;
      fetchUserData (User.uid cu) cu
  | None =>
      setAuthMessage "Not logged in" ;;
      console_log "User is logged out." ;;
      setUserData None
  end.

(** [handleRedirectResult] (lines 91-118), called once on mount. *)
Definition handleRedirectResult : M unit :=
  try_catch
    (result <- auth_call getRedirectResult ;;
     match result with
     | Some user =>
         setAuthMessage
           ("Successfully signed in with redirect: " +:+
            Js.show (Js.or (User.email user) (User.displayName user))) ;;
         let userDocRef := doc "userProfiles" (User.uid user) in
         docSnap <- getDoc userDocRef ;;
         if negb (snap_exists docSnap) then
           now <- new_Date ;;
           setDoc userDocRef
             {| Profile.uid := User.uid user;
                Profile.email := Js.or (User.email user) None;
                Profile.displayName := Js.or (User.displayName user) None;
                Profile.photoURL := Js.or (User.photoURL user) None;
                Profile.createdAt := now;
                Profile.score := 0 |}
         else ret tt
     | None => ret tt
     end)
    (fun error =>
       setAuthMessage ("Redirect Sign In Error: " +:+ message error) ;;
       console_error "Redirect Sign In Error:").

(** [handleSignUp] (lines 128-149) *)
Definition handleSignUp : M unit :=
  setAuthMessage "Signing up..." ;;
  try_catch
    (email <- read_app email ;;
     password <- read_app password ;;
     userCredential <- auth_call (createUserWithEmailAndPassword email password) ;;
     user <- dot_user userCredential ;;
     now <- new_Date ;;
     setDoc (doc "userProfiles" (User.uid user))
       {| Profile.uid := User.uid user;
          Profile.email := Js.or (User.email user) None;
          Profile.displayName := Js.or (User.displayName user) None;
          Profile.photoURL := Js.or (User.photoURL user) None;
          Profile.createdAt := now;
          Profile.score := 0 |})
    (fun error =>
       setAuthMessage ("Sign Up Error: " +:+ message error) ;;
       console_error "Sign Up Error:").

(** [handleSignIn] (lines 151-161) *)
Definition handleSignIn : M unit :=
  setAuthMessage "Signing in..." ;;
  try_catch
    (email <- read_app email ;;
     password <- read_app password ;;
     auth_call (signInWithEmailAndPassword email password) ;;
     ret tt)
    (fun error =>
       setAuthMessage ("Sign In Error: " +:+ message error) ;;
       console_error "Sign In Error:").

(** [handleGoogleSignInPopup] (lines 163-188) *)
Definition handleGoogleSignInPopup : M unit :=
  setAuthMessage "Signing in with Google (Popup)..." ;;
  try_catch
    (result <- auth_call signInWithPopup ;;
     user <- dot_user result ;;
     let userDocRef := doc "userProfiles" (User.uid user) in
     docSnap <- getDoc userDocRef ;;
     if negb (snap_exists docSnap) then
       now <- new_Date ;;
       setDoc userDocRef
         {| Profile.uid := User.uid user;
            Profile.email := Js.or (User.email user) None;
            Profile.displayName := Js.or (User.displayName user) None;
            Profile.photoURL := Js.or (User.photoURL user) None;
            Profile.createdAt := now;
            Profile.score := 0 |}
     else ret tt)
    (fun error =>
       setAuthMessage ("Google Sign In Error (Popup): " +:+ message error) ;;
       console_error "Google Sign In Error (Popup):").

(** [handleGoogleSignInRedirect] (lines 191-202) *)
Definition handleGoogleSignInRedirect : M unit :=
  setAuthMessage "Redirecting for Google Sign In..." ;;
  try_catch
    (auth_call signInWithRedirect ;;
     ret tt)
    (fun error =>
       setAuthMessage ("Google Sign In Error (Redirect): " +:+ message error) ;;
       console_error "Google Sign In Error (Redirect):").

(** [handleSignOut] (lines 205-215) *)
Definition handleSignOut : M unit :=
  setAuthMessage "Signing out..." ;;
  try_catch
    (auth_call signOut ;;
     ret tt)
    (fun error =>
       setAuthMessage ("Sign Out Error: " +:+ message error) ;;
       console_error "Sign Out Error:").

(** The entry points of the component: what the event loop can run. *)
Inductive Handler :=
| FetchUserData (uid : string) (currentUserObject : User.t)
| AuthStateChanged (currentUser : option User.t)
| HandleRedirectResult
| HandleSignUp
| HandleSignIn
| HandleGoogleSignInPopup
| HandleGoogleSignInRedirect
| HandleSignOut.

Definition run (h : Handler) : M unit :=
  match h with
  | FetchUserData uid u => fetchUserData uid u
  | AuthStateChanged cu => onAuthStateChanged_callback cu
  | HandleRedirectResult => handleRedirectResult
  | HandleSignUp => handleSignUp
  | HandleSignIn => handleSignIn
  | HandleGoogleSignInPopup => handleGoogleSignInPopup
  | HandleGoogleSignInRedirect => handleGoogleSignInRedirect
  | HandleSignOut => handleSignOut
  end.

(** The five handlers bound to the buttons of the form. *)
Definition form_handler (h : Handler) : bool :=
  match h with
  | HandleSignUp | HandleSignIn | HandleGoogleSignInPopup
  | HandleGoogleSignInRedirect | HandleSignOut => true
  | _ => false
  end.




Definition error_prefix (h : Handler) : string :=
  match h with
  | FetchUserData _ _ | AuthStateChanged _ => "Firestore Data Error: "
  | HandleRedirectResult => "Redirect Sign In Error: "
  | HandleSignUp => "Sign Up Error: "
  | HandleSignIn => "Sign In Error: "
  | HandleGoogleSignInPopup => "Google Sign In Error (Popup): "
  | HandleGoogleSignInRedirect => "Google Sign In Error (Redirect): "
  | HandleSignOut => "Sign Out Error: "
  end.

(** An execution: the event loop takes one entry point after the other,
    whatever became of the one before. *)
Fixpoint run_all (hs : list Handler) (s : State) : State * list Event :=
  match hs with
  | [] => (s, [])
  | h :: rest =>
      let r := run h s in
      let '(s', evs) := run_all rest (final r) in
      (s', (events r ++ evs)%list)
  end.

(** ** Reading a trace *)

Definition store_calls (evs : list Event) : list (Call * Answer) :=
  omap (fun ev =>
    match ev with
    | Ext (GetDoc r) a => Some (GetDoc r, a)
    | Ext (SetDoc r d) a => Some (SetDoc r d, a)
    | _ => None
    end) evs.

Definition writes (evs : list Event) : list (DocRef * Profile.t) :=
  omap (fun ev =>
    match ev with
    | Ext (SetDoc r d) _ => Some (r, d)
    | _ => None
    end) evs.


Definition auth_calls (evs : list Event) : list AuthCall :=
  omap (fun ev =>
    match ev with
    | Ext (Auth c) _ => Some c
    | _ => None
    end) evs.

Definition failures (evs : list Event) : list Error :=
  omap (fun ev =>
    match ev with
    | Ext _ (Failure e) => Some e
    | _ => None
    end) evs.





(** The document the four write sites build under [key] for user [u]:
    email, display name and photo URL are the user's, or [null] where the
    user has none (or an empty one). *)
Definition profile_shape (key : string) (u : User.t) (d : Profile.t) : Prop :=
  Profile.uid d = key ∧
  Profile.email d = (if Js.truthy (User.email u) then User.email u else None) ∧
  Profile.displayName d =
    (if Js.truthy (User.displayName u) then User.displayName u else None) ∧
  Profile.photoURL d = (if Js.truthy (User.photoURL u) then User.photoURL u else None) ∧
  Profile.score d = 0.



(** The key and the user record a write of entry point [h] is built from:
    the arguments of [fetchUserData], the notified user, or the user of the
    credential the Auth service answers with. *)
Definition acting_user (h : Handler) (s : State) : option (string * User.t) :=
  match h with
  | FetchUserData uid u => Some (uid, u)
  | AuthStateChanged (Some cu) => Some (User.uid cu, cu)
  | HandleRedirectResult | HandleSignUp | HandleGoogleSignInPopup =>
      match auth_replies (world s) with
      | AuthOk (Some u) :: _ => Some (User.uid u, u)
      | _ => None
      end
  | _ => None
  end.

(** ** Sample states *)

Definition alice : User.t :=
  {| User.uid := "u1"; User.email := Some "alice@example.org";
     User.displayName := None; User.photoURL := Some "" |}.

Definition alice_profile : Profile.t :=
  {| Profile.uid := "u1"; Profile.email := Some "alice@example.org";
     Profile.displayName := None; Profile.photoURL := None;
     Profile.createdAt := 7; Profile.score := 42 |}.

Definition signed_out (em pw : string) : AppState :=
  {| user := None; email := em; password := pw; authMessage := "";
     userData := None |}.

Definition signed_in : AppState :=
  {| user := Some alice; email := ""; password := "";
     authMessage := "User data fetched for u1. Check console.";
     userData := Some alice_profile |}.

(** Nothing stored yet; both services answer. *)
Definition fresh_world : World :=
  {| store := ∅; clock := 100;
     store_replies := [StoreOk; StoreOk; StoreOk];
     auth_replies := [AuthOk (Some alice)] |}.

(** Alice's profile is stored; both services answer. *)
Definition known_world : World :=
  {| store := {[ doc "userProfiles" "u1" := alice_profile ]}; clock := 100;
     store_replies := [StoreOk; StoreOk; StoreOk];
     auth_replies := [AuthOk (Some alice)] |}.

(** The store is down, the Auth service rejects. *)
Definition failing_world : World :=
  {| store := {[ doc "userProfiles" "u1" := alice_profile ]}; clock := 100;
     store_replies := [StoreErr {| message := "unavailable" |}];
     auth_replies := [AuthErr {| message := "auth/wrong-password" |}] |}.

(** A visitor about to sign up or in; Alice signed in with her profile
    shown; a visitor while both services fail. *)
Definition new_visitor : State :=
  {| app := signed_out "alice@example.org" "secret"; world := fresh_world |}.

Definition alice_at_home : State :=
  {| app := signed_in; world := known_world |}.

Definition bad_day : State :=
  {| app := signed_out "alice@example.org" "wrong"; world := failing_world |}.

(** Alice signed in, her profile shown, when the services start to fail. *)
Definition alice_offline : State :=
  {| app := signed_in; world := failing_world |}.

(** The profile the component writes for Alice at time [t]. *)
Definition alice_new_profile_at (t : Z) : Profile.t :=
  {| Profile.uid := "u1"; Profile.email := Some "alice@example.org";
     Profile.displayName := None; Profile.photoURL := None;
     Profile.createdAt := t; Profile.score := 0 |}.

Definition alice_new_profile : Profile.t := alice_new_profile_at 101.

(** ** The form inputs and the rendered view (lines 217-270) *)

(** The other two setters of [useState], used by the inputs' [onChange]. *)
Definition setEmail (v : string) : M unit :=
  modify_app (fun a =>
    {| user := user a; email := v; password := password a;
       authMessage := authMessage a; userData := userData a |}).

Definition setPassword (v : string) : M unit :=
  modify_app (fun a =>
    {| user := user a; email := email a; password := v;
       authMessage := authMessage a; userData := userData a |}).

(** The five buttons and the handler each has as [onClick]. *)
Inductive Button :=
| SignUpButton
| SignInButton
| GooglePopupButton
| GoogleRedirectButton
| SignOutButton.

Definition onClick (b : Button) : Handler :=
  match b with
  | SignUpButton => HandleSignUp
  | SignInButton => HandleSignIn
  | GooglePopupButton => HandleGoogleSignInPopup
  | GoogleRedirectButton => HandleGoogleSignInRedirect
  | SignOutButton => HandleSignOut
  end.

Inductive Color := green | red.

(** What stands under "Your Profile Data:": the [<pre>] with
    [JSON.stringify(userData, null, 2)], kept here as the record it prints,
    or the paragraph shown instead. *)
Inductive ProfilePane :=
| Pre (json_of : Profile.t)
| Paragraph (text : string).

(** The two blocks of the conditional: the form with its two inputs and
    four buttons, or the welcome block with the identity line, the image if
    any, the sign-out button and the profile pane. *)
Inductive Panel :=
| AuthForm (emailValue passwordValue : string) (buttons : list Button)
| AuthStatus (line : string) (img : option string) (buttons : list Button)
    (pane : ProfilePane).

Record View := {
  status : option (Color * string);
  panel : Panel
}.

(** The JSX returned by [App]. *)
Definition render (a : AppState) : View :=
  {| status :=
       if Js.truthy_string (authMessage a)
       then Some (match user a with Some _ => green | None => red end, authMessage a)
       else None;
     panel :=
       match user a with
       | None =>
           AuthForm (email a) (password a)
             [SignUpButton; SignInButton; GooglePopupButton; GoogleRedirectButton]
       | Some u =>
           AuthStatus
             ("You are logged in as: " +:+
              Js.show (Js.or (Js.or (User.email u) (User.displayName u))
                             (Some "Unknown User")))
             (if Js.truthy (User.photoURL u) then User.photoURL u else None)
             [SignOutButton]
             (match userData a with
              | Some d => Pre d
              | None => Paragraph "No user data loaded yet or profile not found."
              end)
       end |}.

Definition buttons_of (v : View) : list Button :=
  match panel v with
  | AuthForm _ _ bs => bs
  | AuthStatus _ _ bs _ => bs
  end.

(** What the visitor can do to the page. *)
Inductive UiEvent :=
| ChangeEmail (v : string)
| ChangePassword (v : string)
| Click (b : Button).

Definition on_event (e : UiEvent) : M unit :=
  match e with
  | ChangeEmail v => setEmail v
  | ChangePassword v => setPassword v
  | Click b => run (onClick b)
  end.


(** Does the trace make no call to a service after one has failed? *)
Fixpoint no_call_after_failure (evs : list Event) : bool :=
  match evs with
  | [] => true
  | Ext _ (Failure _) :: rest =>
      forallb (fun ev => match ev with Ext _ _ => false | _ => true end) rest
  | _ :: rest => no_call_after_failure rest
  end.

(** Someone else's profile is on display while a new user is notified. *)
Definition bob : User.t :=
  {| User.uid := "u2"; User.email := None;
     User.displayName := None; User.photoURL := None |}.

(** Alice's page, the store not answering any more. *)
Definition alice_stalled : State :=
  {| app := signed_in;
     world := {| store := {[ doc "userProfiles" "u1" := alice_profile ]};
                 clock := 100; store_replies := [];
                 auth_replies := [AuthOk (Some bob)] |} |}.

(** A visitor for whom the Auth service answers but the store fails. *)
Definition half_way : State :=
  {| app := signed_out "alice@example.org" "secret";
     world := {| store := ∅; clock := 100;
                 store_replies := [StoreErr {| message := "permission-denied" |}];
                 auth_replies := [AuthOk (Some alice)] |} |}.

(** A user object without a uid, and a page opened with no redirect
    pending. *)
Definition nobody : User.t :=
  {| User.uid := ""; User.email := Some "ghost@example.org";
     User.displayName := None; User.photoURL := None |}.

Definition no_redirect : State :=
  {| app := signed_out "" "";
     world := {| store := ∅; clock := 100; store_replies := [];
                 auth_replies := [AuthOk None] |} |}.

(** ** Proof tools *)

(** Run the monad: unfold the handlers and the monad's operations and
    reduce the records, leaving maps, strings and numbers alone. *)
Ltac run_js :=
  cbv beta iota zeta delta
    [run fetchUserData onAuthStateChanged_callback handleRedirectResult
     handleSignUp handleSignIn handleGoogleSignInPopup
     handleGoogleSignInRedirect handleSignOut
     setUser setAuthMessage setUserData console_log console_error
     new_Date getDoc setDoc auth_call dot_user settle
     read_app modify_app emit throw try_catch bind ret
     completion final events app world
     store clock store_replies auth_replies
     user email password authMessage userData
     snap_exists data negb doc Js.truthy_string] in *.

(** Open a state into its fields. *)
Ltac open_state s :=
  let a := fresh "a" in
  let st := fresh "st" in
  let t := fresh "t" in
  let sr := fresh "sr" in
  let ar := fresh "ar" in
  destruct s as [a [st t sr ar]];
  cbn [app world store clock store_replies auth_replies] in *.

(** Case analysis on whatever the run is waiting for: the next reply, the
    looked-up document, the identifier, the credential. *)
Ltac no_match_inside x :=
  lazymatch x with
  | context [match _ with _ => _ end] => fail
  | _ => idtac
  end.

Ltac js_case :=
  match goal with
  | |- context [match ?x with _ => _ end] =>
      no_match_inside x;
      first [ is_var x; destruct x
            | rewrite lookup_insert_eq
            | destruct x eqn:? ]
  end.

Ltac js_auto := run_js; repeat (js_case; run_js).

(** The same for the inputs, the buttons and the view. *)
Ltac run_ui :=
  cbv beta iota zeta delta
    [on_event onClick setEmail setPassword render buttons_of status panel
     acting_user] in *;
  run_js.

(** The view asks whether the status is empty: a status built from a
    literal prefix is not, and is put back as it was written. *)
Ltac fold_status :=
  try (exfalso; simpl in *; discriminate);
  repeat match goal with
         | H : _ +:+ _ = String _ _ |- _ => rewrite <- H in *; clear H
         end.

Ltac ui_auto := run_ui; repeat (js_case; run_ui); fold_status.

(** ** The profile-ensure routine *)

Section Ensure.

Variables (uid : string) (currentUserObject : User.t).

Let ref : DocRef := doc "userProfiles" uid.

(** C1: on a state where no document exists under [uid] (a non-empty
    identifier) and the store answers the three calls, [fetchUserData]
    reads, writes a profile built from the user record's email, display
    name and photo with score 0 and the clock's value at the write, reads
    again, and shows exactly that record as [userData]. *)
Theorem fetchUserData_creates_profile (s : State) (rest : list StoreReply) :
  uid ≠ "" →
  store (world s) !! ref = None →
  store_replies (world s) = StoreOk :: StoreOk :: StoreOk :: rest →
  let r := fetchUserData uid currentUserObject s in
  let d := {| Profile.uid := uid;
              Profile.email := Js.or (User.email currentUserObject) None;
              Profile.displayName := Js.or (User.displayName currentUserObject) None;
              Profile.photoURL := Js.or (User.photoURL currentUserObject) None;
              Profile.createdAt := clock (world (final (getDoc ref s)));
              Profile.score := 0 |} in
  completion r = Normal tt ∧
  store_calls (events r) =
    [(GetDoc ref, Snapshot None); (SetDoc ref d, Void);
     (GetDoc ref, Snapshot (Some d))] ∧
  store (world (final r)) = <[ref := d]> (store (world s)) ∧
  store (world (final r)) !! ref = Some d ∧
  userData (app (final r)) = Some d ∧
  user (app (final r)) = user (app s) ∧
  authMessage (app (final r)) =
    "New profile created and fetched for " +:+ uid +:+ ".".
Proof.
  intros Hne Habs Hrep.
  open_state s. subst ref sr.
  destruct uid as [|c0 uid']; [congruence|].
  run_js. rewrite Habs. rewrite lookup_insert_eq.
  repeat split; reflexivity.
Qed.

(** C3: where a document already exists under the identifier,
    [fetchUserData] issues no write, leaves the store as it was, and the
    only calls it makes to the store are reads of that document. *)
Theorem fetchUserData_existing_no_write (s : State) (d : Profile.t) :
  store (world s) !! ref = Some d →
  let r := fetchUserData uid currentUserObject s in
  writes (events r) = [] ∧
  store (world (final r)) = store (world s) ∧
  (∀ c a, (c, a) ∈ store_calls (events r) → c = GetDoc ref) ∧
  (completion r = Normal tt → failures (events r) = [] → uid ≠ "" →
   userData (app (final r)) = Some d).
Proof.
  intros Hex r. subst r ref. open_state s.
  unfold fetchUserData.
  destruct uid as [|c0 uid']; [|destruct sr as [|[|e] sr]];
    run_js; rewrite ?Hex; run_js;
    (split; [reflexivity|]); (split; [reflexivity|]); (split; [|]).
  all: try (intros c ans Hin; simpl in Hin;
            first [ by apply not_elem_of_nil in Hin
                  | apply list_elem_of_singleton in Hin; congruence ]).
  all: simpl; congruence.
Qed.

(** C9: when a call to the store fails inside [fetchUserData], the routine
    still returns, [userData] is [null] whatever it was before, and the
    status is the Firestore error string with the error's message. *)
Theorem fetchUserData_store_error_clears (s : State) (e : Error) :
  e ∈ failures (events (fetchUserData uid currentUserObject s)) →
  completion (fetchUserData uid currentUserObject s) = Normal tt ∧
  userData (app (final (fetchUserData uid currentUserObject s))) = None ∧
  authMessage (app (final (fetchUserData uid currentUserObject s))) =
    "Firestore Data Error: " +:+ message e.
Proof.
  open_state s. unfold fetchUserData.
  destruct uid as [|c0 uid'];
    [|destruct sr as [|[|e1] [|[|e2] [|[|e3] sr]]];
      destruct (st !! doc "userProfiles" (String c0 uid')) as [d|] eqn:Hd];
    run_js; rewrite ?Hd; run_js; rewrite ?lookup_insert_eq; run_js;
    simpl; intros Hin;
    try (apply list_elem_of_singleton in Hin; subst e);
    try (by apply not_elem_of_nil in Hin);
    repeat split; reflexivity.
Qed.

End Ensure.

(** ** The monad is one *)

Lemma bind_ret_l {A B} (a : A) (f : A → M B) (s : State) :
  bind (ret a) f s = f a s.
Proof. unfold bind, ret. by destruct (f a s). Qed.

Lemma bind_ret_r {A} (m : M A) (s : State) :
  bind m ret s = m s.
Proof.
  unfold bind, ret. destruct (m s) as [[a|e|] s1 evs]; try reflexivity.
  by rewrite app_nil_r.
Qed.

Lemma bind_assoc {A B C} (m : M A) (f : A → M B) (g : B → M C) (s : State) :
  bind (bind m f) g s = bind m (fun a => bind (f a) g) s.
Proof.
  unfold bind. destruct (m s) as [[a|e|] s1 evs1]; try reflexivity.
  destruct (f a s1) as [[b|e|] s2 evs2]; try reflexivity.
  destruct (g b s2) as [c s3 evs3]. by rewrite app_assoc.
Qed.

(** A [try] whose [catch] block cannot throw lets no exception out. *)
Lemma try_catch_contains {A} (body : M A) (handler : Error → M A) (s : State) :
  (∀ e s' e', completion (handler e s') ≠ Throw e') →
  ∀ e', completion (try_catch body handler s) ≠ Throw e'.
Proof.
  intros Hh e'. unfold try_catch.
  destruct (body s) as [[a|e|] s1 evs1]; try discriminate.
  specialize (Hh e s1 e'). by destruct (handler e s1).
Qed.

(** ** The handlers *)

(** C5: when the email/password sign-in call fails, [handleSignIn] returns
    normally, does not touch [user] (so an unset user stays unset) nor
    [userData], calls the store not at all, and shows the sign-in error
    string with the failure's message. *)
Theorem handleSignIn_failure (s : State) (e : Error) (rest : list AuthReply) :
  auth_replies (world s) = AuthErr e :: rest →
  let r := handleSignIn s in
  completion r = Normal tt ∧
  user (app (final r)) = user (app s) ∧
  (user (app s) = None → user (app (final r)) = None) ∧
  userData (app (final r)) = userData (app s) ∧
  authMessage (app (final r)) = "Sign In Error: " +:+ message e ∧
  failures (events r) = [e] ∧
  store_calls (events r) = [].
Proof.
  intros Hrep. open_state s. subst ar. run_js.
  repeat split; auto.
Qed.

(** C6: the notification with a [null] user sets both [user] and [userData]
    to [null], whatever was loaded before; so does a sign-out followed by
    that notification. *)
Theorem sign_out_clears_profile (s : State) :
  let r := onAuthStateChanged_callback None s in
  let s' := fst (run_all [HandleSignOut; AuthStateChanged None] s) in
  (completion r = Normal tt ∧
   user (app (final r)) = None ∧
   userData (app (final r)) = None ∧
   authMessage (app (final r)) = "Not logged in" ∧
   world (final r) = world s) ∧
  (user (app s') = None ∧ userData (app s') = None).
Proof.
  open_state s. split.
  - run_js. repeat split; reflexivity.
  - cbn [run_all]. destruct ar as [|[c|e] ar]; run_js; split; reflexivity.
Qed.

(** C4: in every entry point, no failure leaves the handler (the run never
    ends in [Throw]), and whenever a call to a service failed with [e] the
    status shown at the end is the handler's error prefix followed by the
    message of [e]. *)
Theorem failures_caught_and_shown (h : Handler) (s : State) :
  (∀ e, completion (run h s) ≠ Throw e) ∧
  (∀ e, e ∈ failures (events (run h s)) →
        authMessage (app (final (run h s))) = error_prefix h +:+ message e).
Proof.
  open_state s.
  destruct h as [uid u|cu| | | | | |]; try destruct cu as [cu|].
  all: js_auto.
  all: split; [intros e0; discriminate|].
  all: simpl; intros e0 Hin.
  all: try (by apply not_elem_of_nil in Hin).
  all: apply list_elem_of_singleton in Hin; subst e0; reflexivity.
Qed.

(** ** Creation of the profile *)










(** C10: every document written by an entry point is written under
    ['userProfiles'] at the key of the acting user, carries that key as its
    [uid], the user's email, display name and photo URL or [null], score 0,
    and as [createdAt] a clock value read while the entry point ran. *)
Theorem written_profile_shape (h : Handler) (s : State) (r : DocRef) (d : Profile.t) :
  (r, d) ∈ writes (events (run h s)) →
  ∃ key u,
    acting_user h s = Some (key, u) ∧
    r = doc "userProfiles" key ∧
    profile_shape key u d ∧
    clock (world s) ≤ Profile.createdAt d ≤ clock (world (final (run h s))).
Proof.
  revert r d. open_state s. unfold acting_user, profile_shape.
  destruct h as [uid u|cu| | | | | |]; try destruct cu as [cu|].
  all: js_auto.
  all: simpl; intros r d Hin.
  all: try (by apply not_elem_of_nil in Hin).
  all: apply list_elem_of_singleton in Hin; inversion Hin; subst r d.
  all: eexists _, _; split; [reflexivity|]; split; [reflexivity|].
  all: simpl; repeat split; lia.
Qed.

(** ** The form handlers *)


(** ** When [fetchUserData] runs *)



(** ** The theorems at work on the sample states *)

Lemma fetchUserData_creates_profile_witness :
  let r := fetchUserData "u1" alice new_visitor in
  userData (app (final r)) = Some alice_new_profile ∧
  store (world (final r)) !! doc "userProfiles" "u1" = Some alice_new_profile.
Proof.
  destruct (fetchUserData_creates_profile "u1" alice new_visitor [])
    as (_ & _ & _ & Hstore & Hdata & _).
  - discriminate.
  - reflexivity.
  - reflexivity.
  - split; [exact Hdata | exact Hstore].
Defined.

Lemma fetchUserData_existing_no_write_witness :
  writes (events (fetchUserData "u1" alice alice_at_home)) = [] ∧
  store (world (final (fetchUserData "u1" alice alice_at_home))) = store (world alice_at_home).
Proof.
  destruct (fetchUserData_existing_no_write "u1" alice alice_at_home alice_profile)
    as (Hw & Hs & _).
  - reflexivity.
  - split; [exact Hw | exact Hs].
Defined.

Lemma fetchUserData_store_error_clears_witness :
  userData (app alice_offline) = Some alice_profile ∧
  userData (app (final (fetchUserData "u1" alice alice_offline))) = None ∧
  authMessage (app (final (fetchUserData "u1" alice alice_offline))) =
    "Firestore Data Error: unavailable".
Proof.
  destruct (fetchUserData_store_error_clears "u1" alice alice_offline
              {| message := "unavailable" |})
    as (_ & Hd & Hm).
  - vm_compute. constructor.
  - split; [reflexivity | split; [exact Hd | exact Hm]].
Defined.

Lemma handleSignIn_failure_witness :
  user (app (final (handleSignIn bad_day))) = None ∧
  authMessage (app (final (handleSignIn bad_day))) = "Sign In Error: auth/wrong-password".
Proof.
  destruct (handleSignIn_failure bad_day {| message := "auth/wrong-password" |} [])
    as (_ & _ & Hu & _ & Hm & _).
  - reflexivity.
  - split; [apply Hu; reflexivity | exact Hm].
Defined.

Lemma failures_caught_and_shown_witness :
  authMessage (app (final (run HandleSignUp bad_day))) = "Sign Up Error: auth/wrong-password".
Proof.
  apply (proj2 (failures_caught_and_shown HandleSignUp bad_day)
           {| message := "auth/wrong-password" |}).
  vm_compute. constructor.
Defined.


Lemma written_profile_shape_witness :
  ∃ key u,
    acting_user HandleSignUp new_visitor = Some (key, u) ∧
    doc "userProfiles" "u1" = doc "userProfiles" key ∧
    profile_shape key u alice_new_profile ∧
    clock (world new_visitor) ≤ Profile.createdAt alice_new_profile
      ≤ clock (world (final (run HandleSignUp new_visitor))).
Proof.
  apply (written_profile_shape HandleSignUp new_visitor
           (doc "userProfiles" "u1") alice_new_profile).
  vm_compute. constructor.
Defined.



(** ** Where the code departs from the description *)




(** ** Further properties of the component *)

(** *** [fetchUserData] *)

(** X1: with an empty uid, [fetchUserData] calls no service, leaves the
    world as it was, clears [userData] and shows "No user logged in to fetch
    data."; so does the callback for a user whose uid is empty, which still
    sets [user]. *)
Theorem fetchUserData_empty_uid (u : User.t) (s : State) :
  let r := fetchUserData "" u s in
  (completion r = Normal tt ∧
   world (final r) = world s ∧
   store_calls (events r) = [] ∧ auth_calls (events r) = [] ∧
   userData (app (final r)) = None ∧
   authMessage (app (final r)) = "No user logged in to fetch data.") ∧
  (User.uid u = "" →
   let r' := onAuthStateChanged_callback (Some u) s in
   world (final r') = world s ∧
   user (app (final r')) = Some u ∧
   userData (app (final r')) = None ∧
   authMessage (app (final r')) = "No user logged in to fetch data.").
Proof.
  open_state s. split.
  - run_js. repeat split; reflexivity.
  - intros Hu. run_js. rewrite Hu. run_js. repeat split; reflexivity.
Qed.

(** X2: when [fetchUserData] ends without a failure for a non-empty uid,
    what it shows is what is stored: [userData] is the document under
    ['userProfiles'/uid], and that document exists. *)
Theorem fetchUserData_shows_stored (uid : string) (u : User.t) (s : State) :
  uid ≠ "" →
  completion (fetchUserData uid u s) = Normal tt →
  failures (events (fetchUserData uid u s)) = [] →
  is_Some (userData (app (final (fetchUserData uid u s)))) ∧
  userData (app (final (fetchUserData uid u s))) =
    store (world (final (fetchUserData uid u s))) !! doc "userProfiles" uid.
Proof.
  open_state s. destruct uid as [|c0 uid']; [congruence|]. intros _.
  js_auto; simpl; try discriminate; intros _ _.
  all: rewrite ?lookup_insert_eq; split; [eauto | congruence].
Qed.

(** X3: [fetchUserData] is idempotent: run again right after a run that
    ended without failure, with the store answering, it writes nothing,
    leaves the store as it is and shows the same profile. *)
Theorem fetchUserData_twice (uid : string) (u : User.t) (s : State)
    (rest : list StoreReply) :
  uid ≠ "" →
  completion (fetchUserData uid u s) = Normal tt →
  failures (events (fetchUserData uid u s)) = [] →
  store_replies (world (final (fetchUserData uid u s))) = StoreOk :: rest →
  let s1 := final (fetchUserData uid u s) in
  let r2 := fetchUserData uid u s1 in
  completion r2 = Normal tt ∧
  writes (events r2) = [] ∧
  store (world (final r2)) = store (world s1) ∧
  userData (app (final r2)) = userData (app s1) ∧
  authMessage (app (final r2)) = "User data fetched for " +:+ uid +:+ ". Check console.".
Proof.
  intros Hne Hc Hf Hrep s1 r2.
  destruct (fetchUserData_shows_stored uid u s Hne Hc Hf) as [[d Hd] Hst].
  fold s1 in Hd, Hst, Hrep. rewrite Hd in Hst. subst r2. clearbody s1.
  clear Hc Hf. open_state s1. subst sr.
  destruct uid as [|c0 uid']; [congruence|].
  run_js. rewrite <- Hst. cbn in Hd. run_js.
  repeat split; try reflexivity. simpl. congruence.
Qed.

(** *** What no handler does *)

Lemma handler_keeps_documents (h : Handler) (s : State) (k : DocRef) :
  is_Some (store (world s) !! k) →
  is_Some (store (world (final (run h s))) !! k).
Proof.
  open_state s.
  destruct h as [uid u|cu| | | | | |]; try destruct cu as [cu|].
  all: js_auto; intros Hk; try exact Hk.
  all: rewrite lookup_insert_is_Some'; by right.
Qed.

(** X4: the component never deletes: a document that exists is still
    there, under the same key, after any execution of entry points, the
    sign-up included. *)
Theorem documents_never_deleted (hs : list Handler) (s : State) (k : DocRef) :
  is_Some (store (world s) !! k) →
  is_Some (store (world (fst (run_all hs s))) !! k).
Proof.
  revert s. induction hs as [|h hs IH]; intros s Hk; [exact Hk|].
  specialize (IH (final (run h s)) (handler_keeps_documents h s k Hk)).
  cbn [run_all]. destruct (run_all hs (final (run h s))) as [s' evs].
  exact IH.
Qed.

(** X5: an entry point changes at most one document, the one of the acting
    user in ['userProfiles']: every other key reads the same before and
    after, and an entry point with no acting user changes none. *)
Theorem handler_touches_own_document (h : Handler) (s : State) (k : DocRef) :
  (∀ key u, acting_user h s = Some (key, u) → k ≠ doc "userProfiles" key) →
  store (world (final (run h s))) !! k = store (world s) !! k.
Proof.
  open_state s. unfold acting_user.
  destruct h as [uid u|cu| | | | | |]; try destruct cu as [cu|].
  all: js_auto; intros Hk; try reflexivity.
  all: rewrite lookup_insert_ne; [reflexivity|].
  all: intros <-; by eapply Hk.
Qed.

Lemma handler_keeps_inputs (h : Handler) (s : State) :
  email (app (final (run h s))) = email (app s) ∧
  password (app (final (run h s))) = password (app s).
Proof.
  open_state s.
  destruct h as [uid u|cu| | | | | |]; try destruct cu as [cu|].
  all: js_auto; split; reflexivity.
Qed.

(** X6: no entry point writes the two form fields: whatever was typed as
    email and password is still in the state after any execution, after a
    successful sign-up or sign-in too. *)
Theorem inputs_never_cleared (hs : list Handler) (s : State) :
  email (app (fst (run_all hs s))) = email (app s) ∧
  password (app (fst (run_all hs s))) = password (app s).
Proof.
  revert s. induction hs as [|h hs IH]; intros s; [split; reflexivity|].
  specialize (IH (final (run h s))).
  destruct (handler_keeps_inputs h s) as [He Hp].
  cbn [run_all]. destruct (run_all hs (final (run h s))) as [s' evs].
  cbn [fst] in *. rewrite <- He, <- Hp. exact IH.
Qed.

(** X7: there is no retry and no compensation: once a call to a service has
    failed, the entry point makes no further call to any service. *)
Theorem no_call_after_a_failure (h : Handler) (s : State) :
  no_call_after_failure (events (run h s)) = true.
Proof.
  open_state s.
  destruct h as [uid u|cu| | | | | |]; try destruct cu as [cu|].
  all: js_auto; reflexivity.
Qed.

(** *** The notification callback *)

(** X8: for a notification with a user, the status "Logged in as: ..." set
    by the callback never survives the callback: [fetchUserData] replaces it
    before anything is awaited.  The callback ends as [fetchUserData] does,
    with the same status, profile and world, and [user] set whatever the
    store did. *)
Theorem callback_ends_as_fetchUserData (cu : User.t) (s : State) :
  let r := onAuthStateChanged_callback (Some cu) s in
  let r' := fetchUserData (User.uid cu) cu s in
  user (app (final r)) = Some cu ∧
  authMessage (app (final r)) = authMessage (app (final r')) ∧
  userData (app (final r)) = userData (app (final r')) ∧
  world (final r) = world (final r') ∧
  (∀ who, authMessage (app (final r)) ≠ "Logged in as: " +:+ who).
Proof.
  open_state s. js_auto.
  all: repeat split; try reflexivity.
  all: intros who; simpl; discriminate.
Qed.

(** X13: while the first read of the store is pending, the callback has
    already switched [user] to the new user but left [userData] alone: the
    page offers Sign Out, shows "Fetching data for UID: ..." in green, and
    the profile pane still holds what was loaded before. *)
Theorem callback_pending_shows_stale_profile (cu : User.t) (s : State) :
  User.uid cu ≠ "" →
  store_replies (world s) = [] →
  let r := onAuthStateChanged_callback (Some cu) s in
  completion r = Hang ∧
  user (app (final r)) = Some cu ∧
  userData (app (final r)) = userData (app s) ∧
  status (render (app (final r))) =
    Some (green, "Fetching data for UID: " +:+ User.uid cu +:+ "...") ∧
  buttons_of (render (app (final r))) = [SignOutButton] ∧
  ∃ line img,
    panel (render (app (final r))) =
      AuthStatus line img [SignOutButton]
        (match userData (app s) with
         | Some d => Pre d
         | None => Paragraph "No user data loaded yet or profile not found."
         end).
Proof.
  intros Hne Hrep. open_state s. subst sr.
  destruct (User.uid cu) as [|c0 uid'] eqn:Hu; [congruence|].
  run_ui. rewrite Hu. run_ui.
  repeat split; try reflexivity. eexists _, _. reflexivity.
Qed.

(** *** The redirect check on mount *)

(** X9: with no redirect pending ([getRedirectResult] gives [null]),
    [handleRedirectResult] changes nothing the page shows and makes no call
    to the store. *)
Theorem handleRedirectResult_nothing_pending (s : State) (rest : list AuthReply) :
  auth_replies (world s) = AuthOk None :: rest →
  let r := handleRedirectResult s in
  completion r = Normal tt ∧
  app (final r) = app s ∧
  store (world (final r)) = store (world s) ∧
  store_calls (events r) = [].
Proof.
  intros Hrep. open_state s. subst ar. destruct a. run_js.
  repeat split; reflexivity.
Qed.

(** X10: after a redirect sign-in, if nothing failed, the status names the
    user by email or else display name, with no further fallback: for a user
    with neither it reads "... redirect: null".  [user] and [userData] are
    left to the subscription. *)
Theorem handleRedirectResult_status (s : State) (u : User.t) (rest : list AuthReply) :
  auth_replies (world s) = AuthOk (Some u) :: rest →
  failures (events (handleRedirectResult s)) = [] →
  let r := handleRedirectResult s in
  authMessage (app (final r)) =
    "Successfully signed in with redirect: " +:+
    Js.show (Js.or (User.email u) (User.displayName u)) ∧
  (Js.truthy (User.email u) = false → User.displayName u = None →
   authMessage (app (final r)) = "Successfully signed in with redirect: null") ∧
  user (app (final r)) = user (app s) ∧
  userData (app (final r)) = userData (app s).
Proof.
  intros Hrep. open_state s. subst ar.
  js_auto; simpl; try discriminate; intros _.
  all: repeat split; try reflexivity.
  all: intros He Hn; unfold Js.or; rewrite He, Hn; reflexivity.
Qed.

(** *** Sign-up *)

(** X11: when the account is created but the write of the profile fails,
    [handleSignUp] reports "Sign Up Error: ..." with the store's message,
    the store is as before, and nothing is undone: the only call to the Auth
    service is the creation of the account. *)
Theorem handleSignUp_profile_write_fails (s : State) (u : User.t) (e : Error)
    (ar' : list AuthReply) (sr' : list StoreReply) :
  auth_replies (world s) = AuthOk (Some u) :: ar' →
  store_replies (world s) = StoreErr e :: sr' →
  let r := handleSignUp s in
  completion r = Normal tt ∧
  authMessage (app (final r)) = "Sign Up Error: " +:+ message e ∧
  store (world (final r)) = store (world s) ∧
  auth_calls (events r) =
    [createUserWithEmailAndPassword (email (app s)) (password (app s))] ∧
  user (app (final r)) = user (app s).
Proof.
  intros Ha Hs. open_state s. subst ar sr. run_js.
  repeat split; reflexivity.
Qed.

(** X12: [handleSignUp] overwrites: when account creation and the write
    succeed, the document under the new user's key is the fresh profile with
    score 0, whatever was stored under that key before. *)
Theorem handleSignUp_overwrites (s : State) (u : User.t)
    (ar' : list AuthReply) (sr' : list StoreReply) :
  auth_replies (world s) = AuthOk (Some u) :: ar' →
  store_replies (world s) = StoreOk :: sr' →
  let r := handleSignUp s in
  completion r = Normal tt ∧
  store (world (final r)) !! doc "userProfiles" (User.uid u) =
    Some {| Profile.uid := User.uid u;
            Profile.email := Js.or (User.email u) None;
            Profile.displayName := Js.or (User.displayName u) None;
            Profile.photoURL := Js.or (User.photoURL u) None;
            Profile.createdAt := clock (world s) + 1;
            Profile.score := 0 |} ∧
  authMessage (app (final r)) = "Signing up...".
Proof.
  intros Ha Hs. open_state s. subst ar sr. run_js.
  rewrite lookup_insert_eq. repeat split; reflexivity.
Qed.

(** *** What the page shows *)

(** X14: after the notification of a sign-out the page is the form again:
    "Not logged in" in red, the two inputs with what was typed before, the
    four sign-in buttons and no Sign Out. *)
Theorem view_after_sign_out_notification (s : State) :
  render (app (final (onAuthStateChanged_callback None s))) =
    {| status := Some (red, "Not logged in");
       panel := AuthForm (email (app s)) (password (app s))
                  [SignUpButton; SignInButton; GooglePopupButton;
                   GoogleRedirectButton] |}.
Proof. open_state s. run_ui. reflexivity. Qed.

(** X15: after the notification of a user the page always offers Sign Out
    only and shows a status in green, a failure included: when the store
    failed, the green status is the Firestore error and the profile pane is
    the "No user data loaded yet" paragraph. *)
Theorem view_after_user_notification (cu : User.t) (s : State) :
  let v := render (app (final (onAuthStateChanged_callback (Some cu) s))) in
  buttons_of v = [SignOutButton] ∧
  (∃ text, status v = Some (green, text)) ∧
  (∀ e, e ∈ failures (events (onAuthStateChanged_callback (Some cu) s)) →
        status v = Some (green, "Firestore Data Error: " +:+ message e) ∧
        ∃ line img,
          panel v = AuthStatus line img [SignOutButton]
                      (Paragraph "No user data loaded yet or profile not found.")).
Proof.
  open_state s. ui_auto.
  all: split; [reflexivity|]; split; [eexists; reflexivity|].
  all: simpl; intros e0 Hin.
  all: try (by apply not_elem_of_nil in Hin).
  all: apply list_elem_of_singleton in Hin; subst e0.
  all: split; [reflexivity | eexists _, _; reflexivity].
Qed.

(** X16: when a form handler started by a signed-out visitor meets a
    failure, the page stays the form, with the same email and password in
    the inputs and the four buttons, and shows the handler's error string in
    red. *)
Theorem view_after_failed_form_handler (h : Handler) (s : State) (e : Error) :
  form_handler h = true →
  user (app s) = None →
  e ∈ failures (events (run h s)) →
  render (app (final (run h s))) =
    {| status := Some (red, error_prefix h +:+ message e);
       panel := AuthForm (email (app s)) (password (app s))
                  [SignUpButton; SignInButton; GooglePopupButton;
                   GoogleRedirectButton] |}.
Proof.
  intros Hform Hu. open_state s. destruct a as [u em pw msg ud].
  cbn in Hu. subst u.
  destruct h; try discriminate Hform; clear Hform.
  all: ui_auto; simpl; intros Hin.
  all: try (by apply not_elem_of_nil in Hin).
  all: apply list_elem_of_singleton in Hin; subst e; reflexivity.
Qed.


Lemma or_null_not_empty (v : Js.value) : Js.or v None ≠ Some "".
Proof. destruct v as [[|c v]|]; discriminate. Qed.

(** X20: no written profile holds an empty string: in every document an
    entry point writes, email, display name and photo URL are [null] or a
    non-empty string. *)
Theorem written_fields_never_empty (h : Handler) (s : State) (r : DocRef) (d : Profile.t) :
  (r, d) ∈ writes (events (run h s)) →
  Profile.email d ≠ Some "" ∧
  Profile.displayName d ≠ Some "" ∧
  Profile.photoURL d ≠ Some "".
Proof.
  revert r d. open_state s.
  destruct h as [uid u|cu| | | | | |]; try destruct cu as [cu|].
  all: js_auto.
  all: simpl; intros r d Hin.
  all: try (by apply not_elem_of_nil in Hin).
  all: apply list_elem_of_singleton in Hin; inversion Hin; subst r d.
  all: simpl; repeat split; apply or_null_not_empty.
Qed.

(** X21: the welcome block always names someone: the identity line ends in
    the email if there is a non-empty one, else the display name if there is
    a non-empty one, else "Unknown User", and never in nothing; the image is
    there exactly when the photo URL is a non-empty string. *)
Theorem welcome_line_never_blank (a : AppState) (u : User.t) :
  user a = Some u →
  ∃ who img pane,
    panel (render a) = AuthStatus ("You are logged in as: " +:+ who) img [SignOutButton] pane ∧
    who ≠ "" ∧
    (Js.truthy (User.email u) = true → Some who = User.email u) ∧
    (Js.truthy (User.email u) = false → Js.truthy (User.displayName u) = true →
     Some who = User.displayName u) ∧
    (Js.truthy (User.email u) = false → Js.truthy (User.displayName u) = false →
     who = "Unknown User") ∧
    (is_Some img ↔ Js.truthy (User.photoURL u) = true).
Proof.
  intros Hu. destruct a as [u0 em pw msg ud]. cbn in Hu. subst u0.
  destruct u as [id e dn ph]. unfold render. cbn [user User.email User.displayName User.photoURL].
  eexists _, _, _. split; [reflexivity|].
  destruct e as [[|c e]|], dn as [[|c' dn]|], ph as [[|c'' ph]|]; cbn.
  all: repeat split; try discriminate; try reflexivity; try (intros; discriminate).
  all: try (intros [x Hx]; discriminate).
  all: try (intros _; eauto).
Qed.

(** X22: every entry point but the redirect check leaves a status on the
    page: after it, the status paragraph is rendered. *)
Theorem status_always_shown (h : Handler) (s : State) :
  h ≠ HandleRedirectResult →
  is_Some (status (render (app (final (run h s))))).
Proof.
  intros Hh. open_state s.
  destruct h as [uid u|cu| | | | | |]; try congruence; try destruct cu as [cu|].
  all: ui_auto; simpl; eauto.
Qed.

(** *** Handlers and the subscription together *)



(** *** The further properties on the sample states *)

Lemma fetchUserData_empty_uid_witness :
  user (app (final (onAuthStateChanged_callback (Some nobody) alice_at_home))) = Some nobody ∧
  userData (app (final (onAuthStateChanged_callback (Some nobody) alice_at_home))) = None.
Proof.
  destruct (proj2 (fetchUserData_empty_uid nobody alice_at_home)) as (_ & Hu & Hd & _).
  - reflexivity.
  - split; [exact Hu | exact Hd].
Defined.

Lemma fetchUserData_shows_stored_witness :
  userData (app (final (fetchUserData "u1" alice new_visitor))) =
    store (world (final (fetchUserData "u1" alice new_visitor))) !! doc "userProfiles" "u1".
Proof.
  apply (fetchUserData_shows_stored "u1" alice new_visitor).
  - discriminate.
  - reflexivity.
  - reflexivity.
Defined.

Lemma fetchUserData_twice_witness :
  writes (events (fetchUserData "u1" alice (final (fetchUserData "u1" alice alice_at_home)))) = [] ∧
  userData (app (final (fetchUserData "u1" alice (final (fetchUserData "u1" alice alice_at_home)))))
    = userData (app (final (fetchUserData "u1" alice alice_at_home))).
Proof.
  destruct (fetchUserData_twice "u1" alice alice_at_home [StoreOk]) as (_ & Hw & _ & Hd & _).
  - discriminate.
  - reflexivity.
  - reflexivity.
  - reflexivity.
  - split; [exact Hw | exact Hd].
Defined.

Lemma documents_never_deleted_witness :
  is_Some (store (world (fst (run_all [HandleSignUp; AuthStateChanged None] alice_at_home)))
             !! doc "userProfiles" "u1").
Proof.
  apply (documents_never_deleted [HandleSignUp; AuthStateChanged None] alice_at_home).
  exists alice_profile. reflexivity.
Defined.

Lemma handler_touches_own_document_witness :
  store (world (final (run HandleSignUp alice_at_home))) !! doc "userProfiles" "u2" =
  store (world alice_at_home) !! doc "userProfiles" "u2".
Proof.
  apply (handler_touches_own_document HandleSignUp alice_at_home).
  intros key u H. vm_compute in H. inversion H. discriminate.
Defined.

Lemma callback_pending_shows_stale_profile_witness :
  user (app (final (onAuthStateChanged_callback (Some bob) alice_stalled))) = Some bob ∧
  userData (app (final (onAuthStateChanged_callback (Some bob) alice_stalled))) =
    Some alice_profile.
Proof.
  destruct (callback_pending_shows_stale_profile bob alice_stalled) as (_ & Hu & Hd & _).
  - discriminate.
  - reflexivity.
  - split; [exact Hu | exact Hd].
Defined.

Lemma handleRedirectResult_nothing_pending_witness :
  app (final (handleRedirectResult no_redirect)) = app no_redirect.
Proof.
  destruct (handleRedirectResult_nothing_pending no_redirect []) as (_ & Ha & _).
  - reflexivity.
  - exact Ha.
Defined.

Lemma handleRedirectResult_status_witness :
  authMessage (app (final (handleRedirectResult alice_stalled))) =
    "Successfully signed in with redirect: null".
Proof.
  destruct (handleRedirectResult_status alice_stalled bob []) as (_ & Hn & _).
  - reflexivity.
  - reflexivity.
  - apply Hn; reflexivity.
Defined.

Lemma handleSignUp_profile_write_fails_witness :
  authMessage (app (final (handleSignUp half_way))) = "Sign Up Error: permission-denied" ∧
  store (world (final (handleSignUp half_way))) = store (world half_way).
Proof.
  destruct (handleSignUp_profile_write_fails half_way alice
              {| message := "permission-denied" |} [] [])
    as (_ & Hm & Hs & _).
  - reflexivity.
  - reflexivity.
  - split; [exact Hm | exact Hs].
Defined.

Lemma handleSignUp_overwrites_witness :
  store (world alice_at_home) !! doc "userProfiles" "u1" = Some alice_profile ∧
  store (world (final (handleSignUp alice_at_home))) !! doc "userProfiles" "u1" =
    Some alice_new_profile.
Proof.
  destruct (handleSignUp_overwrites alice_at_home alice [] [StoreOk; StoreOk])
    as (_ & Hs & _).
  - reflexivity.
  - reflexivity.
  - split; [reflexivity | exact Hs].
Defined.

Lemma view_after_user_notification_witness :
  status (render (app (final (onAuthStateChanged_callback (Some alice) alice_offline)))) =
    Some (green, "Firestore Data Error: unavailable").
Proof.
  destruct (proj2 (proj2 (view_after_user_notification alice alice_offline))
              {| message := "unavailable" |}) as (Hs & _).
  - vm_compute. constructor.
  - exact Hs.
Defined.

Lemma view_after_failed_form_handler_witness :
  render (app (final (run HandleSignIn bad_day))) =
    {| status := Some (red, "Sign In Error: auth/wrong-password");
       panel := AuthForm "alice@example.org" "wrong"
                  [SignUpButton; SignInButton; GooglePopupButton;
                   GoogleRedirectButton] |}.
Proof.
  apply (view_after_failed_form_handler HandleSignIn bad_day
           {| message := "auth/wrong-password" |}).
  - reflexivity.
  - reflexivity.
  - vm_compute. constructor.
Defined.



Lemma written_fields_never_empty_witness :
  Profile.photoURL alice_new_profile ≠ Some "" ∧ User.photoURL alice = Some "".
Proof.
  destruct (written_fields_never_empty HandleSignUp new_visitor
              (doc "userProfiles" "u1") alice_new_profile) as (_ & _ & Hp).
  - vm_compute. constructor.
  - split; [exact Hp | reflexivity].
Defined.

Lemma welcome_line_never_blank_witness :
  ∃ who img pane,
    panel (render signed_in) =
      AuthStatus ("You are logged in as: " +:+ who) img [SignOutButton] pane ∧
    who ≠ "".
Proof.
  destruct (welcome_line_never_blank signed_in alice) as (who & img & pane & Hp & Hw & _).
  - reflexivity.
  - exists who, img, pane. split; [exact Hp | exact Hw].
Defined.

Lemma status_always_shown_witness :
  is_Some (status (render (app (final (run HandleSignIn new_visitor))))).
Proof.
  apply (status_always_shown HandleSignIn new_visitor). discriminate.
Defined.
